(** * Build-information text blocks of petscmachineinfo.h

    The header [simnibs/external/include/linux/petsc/petscmachineinfo.h]
    declares four [static const char *] constants.  Each one is written as a
    run of adjacent C string literals, every literal ending in a newline
    escape.  This development embeds the four constants character for
    character and states the formatting properties of the blocks over
    them. *)

From Stdlib Require Import Strings.String Strings.Ascii Lists.List Arith.PeanoNat Bool.Bool Lia.
Import ListNotations.

Local Open Scope list_scope.
Local Open Scope string_scope.

(** ** Text utilities *)

(** The newline escape of a C literal: character code 10. *)
Definition nl_char : ascii := "010"%char.
Definition nl : string := String nl_char EmptyString.

(** One C literal of the form ["text\n"]. *)
Definition ln (text : string) : string := text ++ nl.

(** Adjacent C literals are concatenated by the compiler. *)
Fixpoint adjacent (literals : list string) : string :=
  match literals with
  | [] => EmptyString
  | l :: ls => l ++ adjacent ls
  end.

(** A string made of [n] hyphen characters. *)
Fixpoint hyphens (n : nat) : string :=
  match n with
  | O => EmptyString
  | S k => String "-"%char (hyphens k)
  end.

(** The lines of a text: the newline terminates a line and is not part of
    it; a final piece with no newline after it still counts as a line. *)
Fixpoint lines (s : string) : list string :=
  match s with
  | EmptyString => []
  | String c rest =>
      if Ascii.eqb c nl_char then EmptyString :: lines rest
      else match lines rest with
           | [] => [String c EmptyString]
           | l :: ls => String c l :: ls
           end
  end.

(** Inverse direction: every line followed by a newline. *)
Fixpoint unlines (ls : list string) : string :=
  match ls with
  | [] => EmptyString
  | l :: rest => l ++ nl ++ unlines rest
  end.

Definition first_line (s : string) : option string := hd_error (lines s).
Definition last_line (s : string) : option string := hd_error (rev (lines s)).

(** [no_newline s] holds when no character of [s] is a newline. *)
Fixpoint no_newline (s : string) : bool :=
  match s with
  | EmptyString => true
  | String c rest => negb (Ascii.eqb c nl_char) && no_newline rest
  end.

(** Number of space characters at the end of a line. *)
Fixpoint trailing_spaces (s : string) : nat :=
  match s with
  | EmptyString => 0
  | String c rest =>
      if Ascii.eqb c " "%char
      then (if Nat.eqb (trailing_spaces rest) (String.length rest)
            then S (trailing_spaces rest) else trailing_spaces rest)
      else trailing_spaces rest
  end.

(** The line with its trailing spaces removed. *)
Definition rstrip (s : string) : string :=
  substring 0 (String.length s - trailing_spaces s) s.

(** [contains p s]: [p] occurs in [s] as a contiguous run of characters. *)
Fixpoint contains (p s : string) : bool :=
  prefix p s ||
  match s with
  | EmptyString => false
  | String _ rest => contains p rest
  end.

Definition is_substring (p s : string) : Prop :=
  exists before after, s = before ++ p ++ after.

(** Space-separated words of a line (empty words are dropped). *)
Fixpoint words_aux (cur : string) (s : string) : list string :=
  match s with
  | EmptyString => match cur with EmptyString => [] | _ => [cur] end
  | String c rest =>
      if Ascii.eqb c " "%char
      then match cur with
           | EmptyString => words_aux EmptyString rest
           | _ => cur :: words_aux EmptyString rest
           end
      else words_aux (cur ++ String c EmptyString) rest
  end.

Definition words (s : string) : list string := words_aux EmptyString s.

(** Positions (counted from 0) of the lines equal to [sep]. *)
Fixpoint positions_from (i : nat) (sep : string) (ls : list string) : list nat :=
  match ls with
  | [] => []
  | l :: rest =>
      if String.eqb l sep then i :: positions_from (S i) sep rest
      else positions_from (S i) sep rest
  end.

Definition separator_positions (s : string) : list nat :=
  positions_from 0 (hyphens 41) (lines s).

(** ** The four constants of the header *)

Definition petscmachineinfo : string := adjacent
  [ nl;
    ln "-----------------------------------------";
    ln "Libraries compiled on 2024-07-18 12:51:25 on D2000 ";
    ln "Machine characteristics: Linux-6.9.8-arm64-aarch64-with-glibc2.38";
    ln "Using PETSc directory: /home/seb/packages/petsc/3.20.3";
    ln "Using PETSc arch: ";
    ln "-----------------------------------------" ].

Definition petsccompilerinfo : string := adjacent
  [ nl;
    ln "Using C compiler: gcc  -fPIC -Wall -Wwrite-strings -Wno-unknown-pragmas -Wno-lto-type-mismatch -Wno-stringop-overflow -fstack-protector -fvisibility=hidden -g3 -O0  ";
    ln "Using Fortran compiler: gfortran  -fPIC -Wall -ffree-line-length-none -ffree-line-length-0 -Wno-lto-type-mismatch -Wno-unused-dummy-argument -g -O0    ";
    ln "-----------------------------------------" ].

Definition petsccompilerflagsinfo : string := adjacent
  [ nl;
    ln "Using include paths: -I/home/seb/packages/petsc/3.20.3/include";
    ln "-----------------------------------------" ].

Definition petsclinkerinfo : string := adjacent
  [ nl;
    ln "Using C linker: gcc";
    ln "Using Fortran linker: gfortran";
    ln "Using libraries: -Wl,-rpath,/home/seb/packages/petsc/3.20.3/lib -L/home/seb/packages/petsc/3.20.3/lib -lpetsc -llapack -lblas -lm -lX11 -lgfortran -lstdc++";
    ln "-----------------------------------------" ].

(** ** The capsule and its accessors *)

(** The four blocks, by the names the specification gives them. *)
Inductive Block : Type :=
  | GeneralInfo
  | CompilerInfo
  | CompilerFlagsInfo
  | LinkerInfo.

Record BuildInfoCapsule : Type := mkCapsule {
  generalInfo : string;
  compilerInfo : string;
  compilerFlagsInfo : string;
  linkerInfo : string
}.

(** The capsule of this build: every field is one constant of the header. *)
Definition capsule : BuildInfoCapsule :=
  {| generalInfo := petscmachineinfo;
     compilerInfo := petsccompilerinfo;
     compilerFlagsInfo := petsccompilerflagsinfo;
     linkerInfo := petsclinkerinfo |}.

Definition block_text (b : Block) : string :=
  match b with
  | GeneralInfo => generalInfo capsule
  | CompilerInfo => compilerInfo capsule
  | CompilerFlagsInfo => compilerFlagsInfo capsule
  | LinkerInfo => linkerInfo capsule
  end.


(** Modelled from the spec: the four accessors [getGeneralInfo],
    [getCompilerInfo], [getCompilerFlagsInfo] and [getLinkerInfo] are not
    part of the header.  The specification describes each one as a pure
    projection of static data, with no mutation and no failure.  A call is
    modelled as a step of the process over its static data: it returns the
    text and leaves the data as it found them. *)
Definition Proc (A : Type) : Type := BuildInfoCapsule -> A * BuildInfoCapsule.

Definition getGeneralInfo : Proc string := fun st => (generalInfo st, st).
Definition getCompilerInfo : Proc string := fun st => (compilerInfo st, st).
Definition getCompilerFlagsInfo : Proc string := fun st => (compilerFlagsInfo st, st).
Definition getLinkerInfo : Proc string := fun st => (linkerInfo st, st).

Definition accessor (b : Block) : Proc string :=
  match b with
  | GeneralInfo => getGeneralInfo
  | CompilerInfo => getCompilerInfo
  | CompilerFlagsInfo => getCompilerFlagsInfo
  | LinkerInfo => getLinkerInfo
  end.

(** Running a process from the static data of this build. *)
Definition run {A : Type} (m : Proc A) : A := fst (m capsule).

(** ** The format contract, in the words of the specification *)

Module Template.

Definition separator : string := hyphens 41.

Definition libraries_line (date time host : string) : string :=
  "Libraries compiled on " ++ date ++ " " ++ time ++ " on " ++ host.

Definition machine_line (triple : string) : string :=
  "Machine characteristics: " ++ triple.

Definition directory_line (library path : string) : string :=
  "Using " ++ library ++ " directory: " ++ path.

Definition arch_line (library arch : string) : string :=
  "Using " ++ library ++ " arch: " ++ arch.

Definition c_compiler_line (cc flags : string) : string :=
  "Using C compiler: " ++ cc ++ " " ++ flags.

Definition fortran_compiler_line (fc flags : string) : string :=
  "Using Fortran compiler: " ++ fc ++ " " ++ flags.

Definition c_linker_line (linker : string) : string :=
  "Using C linker: " ++ linker.

Definition fortran_linker_line (linker : string) : string :=
  "Using Fortran linker: " ++ linker.

Definition libraries_list_line (flags : string) : string :=
  "Using libraries: " ++ flags.

(** The six lines the contract lists for [generalInfo]. *)
Definition general_lines (date time host triple library path arch : string)
  : list string :=
  [ EmptyString;
    libraries_line date time host;
    machine_line triple;
    directory_line library path;
    arch_line library arch;
    separator ].

(** The four lines the contract lists for [compilerInfo]. *)
Definition compiler_lines (cc cflags fc fflags : string) : list string :=
  [ EmptyString;
    c_compiler_line cc cflags;
    fortran_compiler_line fc fflags;
    separator ].

(** The five lines the contract lists for [linkerInfo]. *)
Definition linker_lines (clinker flinker libs : string) : list string :=
  [ EmptyString;
    c_linker_line clinker;
    fortran_linker_line flinker;
    libraries_list_line libs;
    separator ].

(** A link flag of the library list: [-Wl,...], [-L...] or [-l...]. *)
Definition link_flag (w : string) : bool :=
  prefix "-Wl" w || prefix "-L" w || prefix "-l" w.

End Template.

(** The lines of a block that start with [p]. *)
Definition lines_with_prefix (p : string) (s : string) : list string :=
  filter (prefix p) (lines s).

(** A word with no space inside and at least one character. *)
Definition single_word (w : string) : bool :=
  match words w with
  | [w'] => String.eqb w' w
  | _ => false
  end.

(** Words joined by single spaces. *)
Fixpoint unwords (ws : list string) : string :=
  match ws with
  | [] => EmptyString
  | w :: rest =>
      match rest with
      | [] => w
      | _ :: _ => w ++ " " ++ unwords rest
      end
  end.

(** [n] space characters. *)
Fixpoint spaces (n : nat) : string :=
  match n with
  | O => EmptyString
  | S k => String " "%char (spaces k)
  end.

(** A text is line-terminated when it is empty or its last character is a
    newline. *)
Fixpoint line_terminated (s : string) : bool :=
  match s with
  | EmptyString => true
  | String c rest =>
      match rest with
      | EmptyString => Ascii.eqb c nl_char
      | String _ _ => line_terminated rest
      end
  end.

(** Index of the last line of a text. *)
Definition last_index (s : string) : nat := List.length (lines s) - 1.

(** ** Reading the blocks as a consumer would *)

(** A [const char *] designates the characters before the first NUL. *)
Fixpoint c_strlen (s : string) : nat :=
  match s with
  | EmptyString => 0
  | String c rest => if Ascii.eqb c Ascii.zero then 0 else S (c_strlen rest)
  end.

(** Newline or a printable ASCII character (codes 32 to 126). *)
Definition printable_or_newline (c : ascii) : bool :=
  Ascii.eqb c nl_char ||
  (Nat.leb 32 (nat_of_ascii c) && Nat.leb (nat_of_ascii c) 126).

Fixpoint all_chars (p : ascii -> bool) (s : string) : bool :=
  match s with
  | EmptyString => true
  | String c rest => p c && all_chars p rest
  end.

(** [strip_prefix p s] is the rest of [s] after [p], when [s] starts with
    [p]. *)
Fixpoint strip_prefix (p s : string) : option string :=
  match p with
  | EmptyString => Some s
  | String a p' =>
      match s with
      | EmptyString => None
      | String b s' => if Ascii.eqb a b then strip_prefix p' s' else None
      end
  end.

(** The value recorded under [key]: the rest of the first line of the
    block that starts with [key]. *)
Definition value_of (key : string) (s : string) : option string :=
  match lines_with_prefix key s with
  | [] => None
  | l :: _ => strip_prefix key l
  end.

(** The first word of the value recorded under [key]. *)
Definition first_word_of (key : string) (s : string) : option string :=
  match value_of key s with
  | None => None
  | Some v => hd_error (words v)
  end.

(** The "Using include paths: ..." line and its flags. *)
Definition include_paths_line (flags : string) : string :=
  "Using include paths: " ++ flags.

Definition include_flag (w : string) : bool := prefix "-I" w.

(** The text a diagnostics command prints when it writes the blocks named
    in [trace] one after the other. *)
Definition printed (trace : list Block) : string :=
  adjacent (map block_text trace).

Definition blank (l : string) : bool := String.eqb l EmptyString.

(** Groups of lines: a blank line opens a new group. *)
Fixpoint split_blocks (ls : list string) : list (list string) :=
  match ls with
  | [] => []
  | l :: rest =>
      match split_blocks rest with
      | [] => [[l]]
      | g :: gs =>
          match g with
          | [] => [l] :: gs
          | first :: _ =>
              if blank first then [l] :: g :: gs else (l :: g) :: gs
          end
      end
  end.

(** The lines of a block after its first line. *)
Definition body_lines (b : Block) : list string := tl (lines (block_text b)).

(** ** General facts about the text utilities *)

Section TextFacts.

Lemma hyphens_length (n : nat) : String.length (hyphens n) = n.
Proof.
  induction n as [|n IH]; simpl; [reflexivity | now rewrite IH].
Qed.

Lemma hyphens_get (n i : nat) (c : ascii) :
  String.get i (hyphens n) = Some c -> c = "-"%char.
Proof.
  revert i; induction n as [|n IH]; intros i; simpl.
  - discriminate.
  - destruct i as [|i].
    + intros H; now inversion H.
    + apply IH.
Qed.

Lemma hyphens_no_newline (n : nat) : no_newline (hyphens n) = true.
Proof.
  induction n as [|n IH]; simpl; [reflexivity | exact IH].
Qed.

Lemma lines_line_then_rest (l rest : string) :
  no_newline l = true -> lines (l ++ nl ++ rest) = l :: lines rest.
Proof.
  induction l as [|c l IH]; simpl in *; intros H.
  - reflexivity.
  - apply andb_true_iff in H as [Hc Hl].
    apply negb_true_iff in Hc. rewrite Hc, (IH Hl). reflexivity.
Qed.

Lemma lines_unlines (ls : list string) :
  forallb no_newline ls = true -> lines (unlines ls) = ls.
Proof.
  induction ls as [|l ls IH]; intros H.
  - reflexivity.
  - apply andb_true_iff in H as [Hl Hls].
    cbn [unlines].
    rewrite (lines_line_then_rest _ _ Hl), (IH Hls). reflexivity.
Qed.

Lemma lines_nil (s : string) : lines s = [] -> s = EmptyString.
Proof.
  destruct s as [|c s]; simpl; [reflexivity|].
  destruct (Ascii.eqb c nl_char); [discriminate|].
  destruct (lines s); discriminate.
Qed.

Lemma unlines_lines (s : string) :
  line_terminated s = true -> unlines (lines s) = s.
Proof.
  induction s as [|c s IH]; simpl; intros H.
  - reflexivity.
  - destruct (Ascii.eqb_spec c nl_char) as [->|Hc].
    + simpl. f_equal. apply IH. destruct s; [reflexivity | exact H].
    + destruct s as [|d s]; [discriminate|].
      specialize (IH H).
      destruct (lines (String d s)) as [|l ls] eqn:E.
      * apply lines_nil in E. discriminate.
      * simpl in *. now rewrite IH.
Qed.

Lemma prefix_split (p s : string) :
  prefix p s = true -> exists after, s = p ++ after.
Proof.
  revert s; induction p as [|c p IH]; intros s.
  - intros _. now exists s.
  - destruct s as [|d s]; simpl; [discriminate|].
    destruct (ascii_dec c d) as [->|]; intros H; [|discriminate H].
    destruct (IH _ H) as [after ->]. now exists after.
Qed.

Lemma contains_sound (p s : string) :
  contains p s = true -> is_substring p s.
Proof.
  induction s as [|c s IH]; simpl; intros H.
  - destruct p; [|discriminate]. now exists EmptyString, EmptyString.
  - apply orb_true_iff in H as [H|H].
    + destruct (prefix_split p (String c s) H) as [after E].
      exists EmptyString, after. exact E.
    + destruct (IH H) as (before & after & ->).
      now exists (String c before), after.
Qed.

Lemma trailing_spaces_le (s : string) : trailing_spaces s <= String.length s.
Proof.
  induction s as [|c s IH]; simpl; [lia|].
  destruct (Ascii.eqb c " "); [destruct (Nat.eqb_spec (trailing_spaces s) (String.length s))|]; lia.
Qed.

Lemma rstrip_then_spaces (s : string) :
  s = rstrip s ++ spaces (trailing_spaces s).
Proof.
  unfold rstrip.
  induction s as [|c s IH]; [reflexivity|].
  pose proof (trailing_spaces_le s) as Hle.
  cbn [trailing_spaces String.length].
  destruct (Ascii.eqb_spec c " ") as [->|Hc].
  - destruct (Nat.eqb_spec (trailing_spaces s) (String.length s)) as [E|E].
    + rewrite E in IH |- *. cbn [Nat.sub]. rewrite Nat.sub_diag in IH |- *.
      replace (substring 0 0 s) with EmptyString in IH by (now destruct s).
      simpl in IH |- *. f_equal. exact IH.
    + replace (S (String.length s) - trailing_spaces s)
        with (S (String.length s - trailing_spaces s)) by lia.
      simpl. now rewrite <- IH.
  - replace (S (String.length s) - trailing_spaces s)
      with (S (String.length s - trailing_spaces s)) by lia.
    simpl. now rewrite <- IH.
Qed.

Lemma positions_from_spec (sep : string) (ls : list string) :
  forall k i,
    In i (positions_from k sep ls) <->
    k <= i /\ nth_error ls (i - k) = Some sep.
Proof.
  induction ls as [|l ls IH]; intros k i; simpl.
  - split; [tauto|]. intros [_ H]. destruct (i - k); discriminate.
  - assert (Hstep : forall j, S k <= j -> j - k = S (j - S k)) by (intros; lia).
    destruct (String.eqb_spec l sep) as [->|Hne]; simpl; rewrite IH.
    + split.
      * intros [<-|[Hle H]].
        -- rewrite Nat.sub_diag. split; [lia | reflexivity].
        -- rewrite (Hstep _ Hle). split; [lia | exact H].
      * intros [Hle H]. destruct (Nat.eq_dec k i) as [->|Hki]; [now left|right].
        assert (Hlt : S k <= i) by lia.
        rewrite (Hstep _ Hlt) in H. split; [lia | exact H].
    + split.
      * intros [Hle H]. rewrite (Hstep _ Hle). split; [lia | exact H].
      * intros [Hle H]. destruct (Nat.eq_dec k i) as [->|Hki].
        -- rewrite Nat.sub_diag in H. simpl in H. congruence.
        -- assert (Hlt : S k <= i) by lia.
           rewrite (Hstep _ Hlt) in H. split; [lia | exact H].
Qed.

End TextFacts.

(** ** Facts about the accessor model *)

Section AccessorFacts.

Lemma accessor_returns_field (b : Block) : run (accessor b) = block_text b.
Proof. destruct b; reflexivity. Qed.

Lemma accessor_keeps_state (b : Block) (st : BuildInfoCapsule) :
  snd (accessor b st) = st.
Proof. destruct b; reflexivity. Qed.

End AccessorFacts.

(** ** Opening and closing lines of the blocks *)

(** C1, as stated, fails: it is not the case that every block begins with
    the 41-hyphen line and ends with it.  The first line of [generalInfo]
    is the empty line produced by the leading newline literal. *)
Lemma not_every_block_opens_with_separator :
  ~ (forall b : Block,
        first_line (block_text b) = Some (hyphens 41) /\
        last_line (block_text b) = Some (hyphens 41)).
Proof.
  intros H. destruct (H GeneralInfo) as [Hfirst _].
  vm_compute in Hfirst. discriminate Hfirst.
Qed.

(** C1, amended: every one of the four blocks begins with an empty line and
    ends with a line consisting of exactly 41 hyphen characters; the text
    after that last line's newline is empty. *)
Theorem block_opens_blank_and_closes_with_separator (b : Block) :
  first_line (block_text b) = Some EmptyString /\
  last_line (block_text b) = Some (hyphens 41) /\
  String.length (hyphens 41) = 41 /\
  line_terminated (block_text b) = true.
Proof.
  destruct b; vm_compute; repeat split.
Qed.

(** ** The lines of [generalInfo] *)

(** C2, as stated, fails: whatever the date, time, host, machine triple,
    library name, path and arch label, the lines of [generalInfo] are not
    the six lines the contract lists, because the block has seven lines. *)
Lemma general_info_is_not_the_six_listed_lines :
  ~ (exists date time host triple library path arch : string,
        lines petscmachineinfo =
        Template.general_lines date time host triple library path arch).
Proof.
  intros (date & time & host & triple & library & path & arch & H).
  apply (f_equal (@List.length string)) in H.
  vm_compute in H. discriminate H.
Qed.

(** C2, amended: the [generalInfo] block consists of exactly these seven
    lines, in this order: a blank line, the separator line, the
    "Libraries compiled on <date> <time> on <host>" line, the
    "Machine characteristics: <os-arch-triple>" line, the
    "Using <LibraryName> directory: <path>" line, the
    "Using <LibraryName> arch: <arch-or-empty>" line, and the separator
    line.  The host field carries the trailing space of the literal. *)
Theorem general_info_lines :
  lines petscmachineinfo =
    [ EmptyString;
      Template.separator;
      Template.libraries_line "2024-07-18" "12:51:25" "D2000 ";
      Template.machine_line "Linux-6.9.8-arm64-aarch64-with-glibc2.38";
      Template.directory_line "PETSc" "/home/seb/packages/petsc/3.20.3";
      Template.arch_line "PETSc" EmptyString;
      Template.separator ] /\
  petscmachineinfo = unlines (lines petscmachineinfo).
Proof.
  split; vm_compute; reflexivity.
Qed.

(** ** Texts returned by the accessors *)

(** C3: for each of the four accessors the returned text is non-empty, its
    final line is the 41-hyphen separator line, and the text ends with that
    line and its newline. *)
Theorem accessor_text_nonempty_and_separator_terminated (b : Block) :
  0 < String.length (run (accessor b)) /\
  String.eqb (run (accessor b)) EmptyString = false /\
  last_line (run (accessor b)) = Some (hyphens 41) /\
  run (accessor b) =
    substring 0 (String.length (run (accessor b)) - 42) (run (accessor b))
    ++ hyphens 41 ++ nl.
Proof.
  destruct b; vm_compute; repeat split; repeat constructor.
Qed.

(** ** The lines of [compilerInfo] and [linkerInfo] *)

(** C4: the [compilerInfo] block consists of exactly four lines, in this
    order: a blank line, the "Using C compiler: <cc> <flags>" line, the
    "Using Fortran compiler: <fc> <flags>" line, and the separator line.
    The compilers are single words; each flags field is a space, the flags
    joined by single spaces, and the trailing spaces of the literal. *)
Theorem compiler_info_lines :
  lines petsccompilerinfo =
    Template.compiler_lines
      "gcc"
      (" " ++ unwords
         [ "-fPIC"; "-Wall"; "-Wwrite-strings"; "-Wno-unknown-pragmas";
           "-Wno-lto-type-mismatch"; "-Wno-stringop-overflow";
           "-fstack-protector"; "-fvisibility=hidden"; "-g3"; "-O0" ]
       ++ spaces 2)
      "gfortran"
      (" " ++ unwords
         [ "-fPIC"; "-Wall"; "-ffree-line-length-none";
           "-ffree-line-length-0"; "-Wno-lto-type-mismatch";
           "-Wno-unused-dummy-argument"; "-g"; "-O0" ]
       ++ spaces 4) /\
  single_word "gcc" = true /\
  single_word "gfortran" = true /\
  petsccompilerinfo = unlines (lines petsccompilerinfo).
Proof.
  repeat split; vm_compute; reflexivity.
Qed.

(** C5: the [linkerInfo] block consists of exactly five lines, in this
    order: a blank line, the "Using C linker: <linker>" line, the
    "Using Fortran linker: <linker>" line, the "Using libraries: ..." line
    whose field is a list of -Wl, -L and -l flags joined by single spaces,
    and the separator line. *)
Theorem linker_info_lines :
  lines petsclinkerinfo =
    Template.linker_lines
      "gcc"
      "gfortran"
      (unwords
         [ "-Wl,-rpath,/home/seb/packages/petsc/3.20.3/lib";
           "-L/home/seb/packages/petsc/3.20.3/lib";
           "-lpetsc"; "-llapack"; "-lblas"; "-lm"; "-lX11"; "-lgfortran";
           "-lstdc++" ]) /\
  forallb Template.link_flag
    (words (unwords
         [ "-Wl,-rpath,/home/seb/packages/petsc/3.20.3/lib";
           "-L/home/seb/packages/petsc/3.20.3/lib";
           "-lpetsc"; "-llapack"; "-lblas"; "-lm"; "-lX11"; "-lgfortran";
           "-lstdc++" ])) = true /\
  petsclinkerinfo = unlines (lines petsclinkerinfo).
Proof.
  repeat split; vm_compute; reflexivity.
Qed.

(** ** Concrete scenarios *)

(** C6: the text returned by the [compilerInfo] accessor contains the exact
    substring "Using C compiler: gcc  -fPIC -Wall", with two spaces between
    "gcc" and "-fPIC"; it starts right after the leading newline, and the
    variant with a single space does not occur. *)
Theorem compiler_info_contains_gcc_double_space :
  is_substring "Using C compiler: gcc  -fPIC -Wall" (run getCompilerInfo) /\
  substring 1 34 (run getCompilerInfo) = "Using C compiler: gcc  -fPIC -Wall" /\
  contains "Using C compiler: gcc -fPIC" (run getCompilerInfo) = false.
Proof.
  split; [apply contains_sound|split]; vm_compute; reflexivity.
Qed.

(** C7: with the empty arch label of this build, the [generalInfo] block
    has exactly one line starting with "Using PETSc arch:"; that line is
    the arch template applied to the empty label, that is the text up to
    the colon followed by one space and nothing else, and the newline
    follows it directly in the block. *)
Theorem empty_arch_line_is_emitted :
  lines_with_prefix "Using PETSc arch:" (block_text GeneralInfo) =
    [ Template.arch_line "PETSc" EmptyString ] /\
  Template.arch_line "PETSc" EmptyString = "Using PETSc arch:" ++ spaces 1 /\
  trailing_spaces (Template.arch_line "PETSc" EmptyString) = 1 /\
  is_substring ("Using PETSc arch:" ++ spaces 1 ++ nl) (block_text GeneralInfo).
Proof.
  repeat split; try (vm_compute; reflexivity).
  apply contains_sound. vm_compute. reflexivity.
Qed.

(** ** Separator lines *)

(** C9: [generalInfo] has exactly two separator lines, at position 1 (right
    after the leading blank line) and at its last position; each of the
    other three blocks has exactly one separator line, at its last
    position, and its second line is a content line. *)
Theorem separator_lines_per_block :
  first_line (block_text GeneralInfo) = Some EmptyString /\
  separator_positions (block_text GeneralInfo) =
    [1; last_index (block_text GeneralInfo)] /\
  1 < last_index (block_text GeneralInfo) /\
  separator_positions (block_text CompilerInfo) =
    [last_index (block_text CompilerInfo)] /\
  1 < last_index (block_text CompilerInfo) /\
  separator_positions (block_text CompilerFlagsInfo) =
    [last_index (block_text CompilerFlagsInfo)] /\
  1 < last_index (block_text CompilerFlagsInfo) /\
  separator_positions (block_text LinkerInfo) =
    [last_index (block_text LinkerInfo)] /\
  1 < last_index (block_text LinkerInfo).
Proof.
  vm_compute. repeat split; repeat constructor.
Qed.

(** ** Trailing whitespace *)

(** C10: the "Libraries compiled on ... on D2000" line ends with one space,
    the "Using C compiler: ..." line with two and the
    "Using Fortran compiler: ..." line with four; removing the trailing
    spaces of the lines gives a text different from the block. *)
Theorem trailing_whitespace_is_part_of_the_text :
  lines_with_prefix "Libraries compiled on" petscmachineinfo =
    [ Template.libraries_line "2024-07-18" "12:51:25" "D2000" ++ spaces 1 ] /\
  map trailing_spaces
      (lines_with_prefix "Libraries compiled on" petscmachineinfo) = [1] /\
  map trailing_spaces
      (lines_with_prefix "Using C compiler:" petsccompilerinfo) = [2] /\
  map trailing_spaces
      (lines_with_prefix "Using Fortran compiler:" petsccompilerinfo) = [4] /\
  String.eqb (unlines (map rstrip (lines petscmachineinfo))) petscmachineinfo
    = false /\
  String.eqb (unlines (map rstrip (lines petsccompilerinfo))) petsccompilerinfo
    = false.
Proof.
  repeat split; vm_compute; reflexivity.
Qed.

(** ** Further facts about lines and groups *)

Section ConsumerFacts.

Lemma lines_app (a b : string) :
  line_terminated a = true -> lines (a ++ b) = (lines a ++ lines b)%list.
Proof.
  induction a as [|c a IH]; intros H.
  - reflexivity.
  - cbn [append lines]. cbn [line_terminated] in H.
    destruct (Ascii.eqb_spec c nl_char) as [->|Hc].
    + cbn [app]. f_equal. apply IH. destruct a; [reflexivity | exact H].
    + destruct a as [|d a]; [discriminate H|].
      rewrite (IH H).
      destruct (lines (String d a)) as [|l ls] eqn:E.
      * apply lines_nil in E. discriminate E.
      * reflexivity.
Qed.

Lemma all_chars_get (p : ascii -> bool) (s : string) :
  all_chars p s = true ->
  forall i c, String.get i s = Some c -> p c = true.
Proof.
  induction s as [|d s IH]; intros H i c Hget.
  - destruct i; discriminate Hget.
  - cbn [all_chars] in H. apply andb_true_iff in H as [Hd Hs].
    destruct i as [|i]; cbn [String.get] in Hget.
    + inversion Hget; subst. exact Hd.
    + exact (IH Hs i c Hget).
Qed.

Lemma c_strlen_no_nul (s : string) :
  all_chars (fun c => negb (Ascii.eqb c Ascii.zero)) s = true ->
  c_strlen s = String.length s.
Proof.
  induction s as [|d s IH]; intros H.
  - reflexivity.
  - cbn [all_chars] in H. apply andb_true_iff in H as [Hd Hs].
    apply negb_true_iff in Hd. cbn [c_strlen String.length].
    rewrite Hd, (IH Hs). reflexivity.
Qed.

Lemma split_blocks_step (x : string) (ls : list string) :
  split_blocks (x :: ls) =
  match split_blocks ls with
  | [] => [[x]]
  | g :: gs =>
      match g with
      | [] => [x] :: gs
      | first :: _ => if blank first then [x] :: g :: gs else (x :: g) :: gs
      end
  end.
Proof. reflexivity. Qed.

Lemma split_blocks_head (x : string) (ls : list string) :
  exists g gs, split_blocks (x :: ls) = (x :: g) :: gs.
Proof.
  rewrite split_blocks_step.
  destruct (split_blocks ls) as [|g gs]; [now exists [], []|].
  destruct g as [|first g]; [now exists [], gs|].
  destruct (blank first); eauto.
Qed.

Lemma split_blocks_body (body rest : list string) :
  forallb (fun l => negb (blank l)) body = true ->
  (rest = [] \/ exists rest', rest = EmptyString :: rest') ->
  forall x, split_blocks (x :: body ++ rest) = (x :: body) :: split_blocks rest.
Proof.
  intros Hbody Hrest.
  induction body as [|y body IH]; intros x.
  - cbn [app]. rewrite split_blocks_step.
    destruct Hrest as [->|[rest' ->]]; [reflexivity|].
    destruct (split_blocks_head EmptyString rest') as (g & gs & ->).
    reflexivity.
  - cbn [forallb] in Hbody. apply andb_true_iff in Hbody as [Hy Hb].
    apply negb_true_iff in Hy.
    rewrite <- app_comm_cons, split_blocks_step, (IH Hb y), Hy.
    reflexivity.
Qed.

Lemma block_lines_shape (b : Block) :
  lines (block_text b) = EmptyString :: body_lines b /\
  forallb (fun l => negb (blank l)) (body_lines b) = true /\
  line_terminated (block_text b) = true /\
  unlines (lines (block_text b)) = block_text b.
Proof.
  destruct b; vm_compute; repeat split.
Qed.

Lemma printed_lines_start (trace : list Block) :
  lines (printed trace) = [] \/
  exists rest', lines (printed trace) = EmptyString :: rest'.
Proof.
  destruct trace as [|b trace]; [now left|right].
  unfold printed. cbn [map adjacent].
  destruct (block_lines_shape b) as (Hshape & _ & Hterm & _).
  rewrite (lines_app _ _ Hterm), Hshape. cbn [app]. eauto.
Qed.

Lemma split_printed_lines (trace : list Block) :
  split_blocks (lines (printed trace)) =
  map (fun b => lines (block_text b)) trace.
Proof.
  induction trace as [|b trace IH]; [reflexivity|].
  destruct (block_lines_shape b) as (Hshape & Hbody & Hterm & _).
  change (printed (b :: trace)) with (block_text b ++ printed trace).
  rewrite (lines_app _ _ Hterm). cbn [map]. rewrite Hshape.
  rewrite <- app_comm_cons.
  rewrite (split_blocks_body _ _ Hbody (printed_lines_start trace)), IH.
  reflexivity.
Qed.

End ConsumerFacts.

(** ** Properties of the constants beyond the format contract *)

(** X1: the [petsccompilerflagsinfo] block consists of exactly three lines:
    a blank line, the "Using include paths: ..." line whose field is a list
    of -I flags joined by single spaces, and the separator line. *)
Theorem compiler_flags_info_lines :
  lines petsccompilerflagsinfo =
    [ EmptyString;
      include_paths_line
        (unwords [ "-I/home/seb/packages/petsc/3.20.3/include" ]);
      hyphens 41 ] /\
  forallb include_flag
    (words (unwords [ "-I/home/seb/packages/petsc/3.20.3/include" ])) = true /\
  petsccompilerflagsinfo = unlines (lines petsccompilerflagsinfo).
Proof.
  repeat split; vm_compute; reflexivity.
Qed.

(** X2: every character of every block is a newline or a printable ASCII
    character; none is the NUL character, a tab or a carriage return. *)
Theorem block_characters_are_printable
    (b : Block) (i : nat) (c : ascii)
    (H : String.get i (block_text b) = Some c) :
  (c = nl_char \/ 32 <= nat_of_ascii c <= 126) /\
  c <> Ascii.zero /\ c <> "009"%char /\ c <> "013"%char.
Proof.
  assert (Hall : all_chars printable_or_newline (block_text b) = true)
    by (destruct b; vm_compute; reflexivity).
  pose proof (all_chars_get _ _ Hall i c H) as Hc.
  unfold printable_or_newline in Hc.
  assert (Hcases : c = nl_char \/ 32 <= nat_of_ascii c <= 126).
  { apply orb_true_iff in Hc as [Hc|Hc].
    - left. now apply Ascii.eqb_eq.
    - right. apply andb_true_iff in Hc as [Hlo Hhi].
      apply Nat.leb_le in Hlo. apply Nat.leb_le in Hhi. lia. }
  split; [exact Hcases|].
  repeat split; intros ->; destruct Hcases as [Hnl|Hrange];
    try discriminate Hnl; vm_compute in Hrange; lia.
Qed.

(** The third character of [generalInfo] is a hyphen. *)
Lemma block_characters_are_printable_witness :
  ("-"%char = nl_char \/ 32 <= nat_of_ascii "-"%char <= 126) /\
  "-"%char <> Ascii.zero /\ "-"%char <> "009"%char /\ "-"%char <> "013"%char.
Proof.
  apply (block_characters_are_printable GeneralInfo 2 "-"%char).
  reflexivity.
Defined.

(** X3: read through its [const char *], each constant is the whole
    literal: the length up to the first NUL is the length of the text. *)
Theorem c_string_is_whole_literal (b : Block) :
  c_strlen (block_text b) = String.length (block_text b) /\
  0 < c_strlen (block_text b).
Proof.
  split.
  - apply c_strlen_no_nul. destruct b; vm_compute; reflexivity.
  - destruct b; vm_compute; repeat constructor.
Qed.

(** X4: the install directory recorded in [petscmachineinfo] is the one
    the other blocks use: the include path is -I<dir>/include, and the
    library list starts with -Wl,-rpath,<dir>/lib and -L<dir>/lib. *)
Theorem install_directory_is_shared :
  exists dir libs : string,
    value_of "Using PETSc directory: " petscmachineinfo = Some dir /\
    0 < String.length dir /\
    value_of "Using include paths: " petsccompilerflagsinfo =
      Some ("-I" ++ dir ++ "/include") /\
    value_of "Using libraries: " petsclinkerinfo = Some libs /\
    firstn 2 (words libs) =
      [ "-Wl,-rpath," ++ dir ++ "/lib"; "-L" ++ dir ++ "/lib" ].
Proof.
  exists "/home/seb/packages/petsc/3.20.3".
  eexists. repeat split; try (vm_compute; reflexivity).
  vm_compute. repeat constructor.
Qed.

(** X5: the linkers recorded in [petsclinkerinfo] are the compilers
    recorded in [petsccompilerinfo]: the C linker is the first word of the
    C compiler field, the Fortran linker the first word of the Fortran
    compiler field, and the two differ. *)
Theorem linkers_are_the_compilers :
  exists cc fc : string,
    value_of "Using C linker: " petsclinkerinfo = Some cc /\
    first_word_of "Using C compiler: " petsccompilerinfo = Some cc /\
    value_of "Using Fortran linker: " petsclinkerinfo = Some fc /\
    first_word_of "Using Fortran compiler: " petsccompilerinfo = Some fc /\
    String.eqb cc fc = false.
Proof.
  exists "gcc", "gfortran". repeat split; vm_compute; reflexivity.
Qed.

(** X6: when the blocks are printed one after the other, in any order and
    any number of times, the printed text splits back into the blocks at
    its blank lines: the groups of lines are the lines of the blocks, and
    joining each group gives the block's text. *)
Theorem printed_blocks_split_at_blank_lines (trace : list Block) :
  split_blocks (lines (printed trace)) =
    map (fun b => lines (block_text b)) trace /\
  map unlines (split_blocks (lines (printed trace))) = map block_text trace /\
  List.length (split_blocks (lines (printed trace))) = List.length trace.
Proof.
  rewrite split_printed_lines. repeat split.
  - rewrite map_map. apply map_ext. intros b.
    now destruct (block_lines_shape b) as (_ & _ & _ & Hround).
  - apply length_map.
Qed.

(** X7: in every block the blank line is the first line and only the first,
    and a line that begins with a hyphen is the 41-hyphen separator, so a
    flag never starts a line. *)
Theorem blank_and_hyphen_lines
    (b : Block) (n : nat) (l : string)
    (H : nth_error (lines (block_text b)) n = Some l) :
  (l = EmptyString <-> n = 0) /\
  (prefix "-" l = true -> l = hyphens 41).
Proof.
  destruct (block_lines_shape b) as (Hshape & Hbody & _ & _).
  rewrite Hshape in H.
  destruct n as [|n]; cbn [nth_error] in H.
  - inversion H; subst. split; [tauto | discriminate].
  - assert (Hl : negb (blank l) = true).
    { rewrite forallb_forall in Hbody. apply Hbody.
      exact (nth_error_In _ _ H). }
    split.
    + split; [|discriminate]. intros ->. discriminate Hl.
    + clear Hl Hshape Hbody. revert H.
      destruct b; vm_compute;
        repeat (destruct n as [|n];
                [intros H; inversion H; subst; clear H;
                 try reflexivity; discriminate |]);
        discriminate.
Qed.

(** The last line of [linkerInfo] is line 4 and begins with a hyphen. *)
Lemma blank_and_hyphen_lines_witness :
  (hyphens 41 = EmptyString <-> 4 = 0) /\
  (prefix "-" (hyphens 41) = true -> hyphens 41 = hyphens 41).
Proof.
  apply (blank_and_hyphen_lines LinkerInfo 4 (hyphens 41)).
  reflexivity.
Defined.
